(** * upptest: the micro unit test framework (src/upptest.h)

    A shallow embedding of the header's data model (Status, Result, Info,
    the thrown objects), of the assertion layer (Basic_Assert over a
    Fail_Handler), of the per-test lifecycle (Test::execute) and of the
    Runner, followed by the properties of the specification that concern
    them.

    Conventions of the embedding.
    - User code (the three hooks of a Test, a descriptor's factory, the
      observer) is a function on the mutable state [G] that user code can
      reach (fixture fields, globals).  It yields the state it leaves
      behind, the steady-clock ticks it consumed and either a value or
      the object it threw.  State changes made before a throw persist, as
      in C++.  User code is taken to terminate, and destructors to have
      no effect.  The filter is a pure predicate.
    - The framework's own code runs in the monad [M]: state passing over
      [State], with the thrown object as the error.  [State] holds the
      user state, the reading of std::chrono::steady_clock, the Result
      the reference [res] denotes, and a ghost trace of the calls made
      into user code.
    - Pointers handed to the framework that it dereferences (a descriptor
      in a range, the Test a factory yields, a file name) are non-null;
      the nullable ones (Result::info, the argument of is_null, the value
      of what()) are modelled as such.
    - int and the millisecond count are Z (the code does no arithmetic on
      err_line; the subtraction of two clock readings is assumed not to
      overflow its representation).  size_t is Z reduced modulo
      2 ^ size_t_bits after every increment.
    - The templated eq and neq take the operators of their operand types
      (operator==, operator!=, operator<<) from the classes Comparable
      and Streamable.  The Registry singleton is process state of its
      own, filled during static initialisation. *)

From Stdlib Require Import ZArith NArith List String Bool Lia DecimalString.
Import ListNotations.
Local Open Scope string_scope.
Local Open Scope Z_scope.

(** ** Thrown objects *)

(** What a throw-expression in user code can deliver to the handlers of
  Test::execute, classified by what those handlers distinguish. *)
Inductive Thrown : Type :=
| (* utest::assert_fail_exception(msg, file_name, line_num) *)
  assert_fail_exception (_msg : string) (_file_name : string) (_line_num : Z)
| (* any other class derived from std::exception; [what] is the value of
     what(), None when it returns a null pointer *)
  std_exception (what : option string)
| (* an object whose type does not derive from std::exception, such as
     [throw 42;]; the payload only names it *)
  foreign_exception (payload : string).

(** A computation that either throws or yields a value. *)
Definition Exc (A : Type) : Type := (Thrown + A)%type.

(** ** Status *)

(** enum class Status *)
Module Status.
Inductive t : Type := not_run | pass | fail.

Definition eqb (a b : t) : bool :=
  match a, b with
  | not_run, not_run | pass, pass | fail, fail => true
  | _, _ => false
  end.
End Status.

(** ** const T* *)

Inductive pointer (T : Type) : Type :=
| nullptr
| address_of (target : T).
Arguments nullptr {T}.
Arguments address_of {T} target.

(** ** Assertion layer *)

(** The strategy parameter of Basic_Assert: a class with a static
  [handle(message, file_name, line_num)]. *)
Class Fail_Handler : Type :=
  handle : string -> string -> Z -> Exc unit.

(** Default_Fail_Handler::handle throws assert_fail_exception. *)
#[export] Instance Default_Fail_Handler : Fail_Handler :=
  fun message file_name line_num =>
    inl (assert_fail_exception message file_name line_num).

(** What the templates eq and neq ask of their operand types: operator==
    and operator!= between a T1 and a T2, and operator<< into a
    std::ostream, here the text it inserts.  The operators are taken to
    be free of side effects. *)
Class Comparable (T1 T2 : Type) : Type := mkComparable {
  equal_to     : T1 -> T2 -> bool;     (* expected == actual *)
  not_equal_to : T1 -> T2 -> bool      (* expected != actual *)
}.

Class Streamable (T : Type) : Type :=
  stream_out : T -> string.

(** int: the built-in comparisons, and the decimal text operator<<
    inserts with the stream's default flags. *)
#[export] Instance Comparable_int : Comparable Z Z :=
  mkComparable Z Z Z.eqb (fun a b => negb (Z.eqb a b)).

#[export] Instance Streamable_int : Streamable Z :=
  fun n => NilZero.string_of_int (Z.to_int n).

Module Basic_Assert.
Section WithHandler.
Context {FH : Fail_Handler}.

Definition fail (message file_name : string) (line_num : Z) : Exc unit :=
  handle message file_name line_num.

Definition expr (ex : bool) (file_name : string) (line_num : Z) : Exc unit :=
  if ex then inr tt
  else fail "Assert expression failed" file_name line_num.

Definition is_true (condition : bool) (file_name : string) (line_num : Z)
  : Exc unit :=
  if condition then inr tt
  else fail "Expected [true] saw [false]" file_name line_num.

Definition is_false (condition : bool) (file_name : string) (line_num : Z)
  : Exc unit :=
  if negb condition then inr tt
  else fail "Expected [false] saw [true]" file_name line_num.

Definition is_null {T} (ptr : pointer T) (file_name : string) (line_num : Z)
  : Exc unit :=
  match ptr with
  | nullptr => inr tt
  | address_of _ => fail "Expected [nullptr]" file_name line_num
  end.

Definition is_not_null {T} (ptr : pointer T) (file_name : string)
  (line_num : Z) : Exc unit :=
  match ptr with
  | address_of _ => inr tt
  | nullptr => fail "Expected not [nullptr]" file_name line_num
  end.

Definition eq {T1 T2} `{Comparable T1 T2} `{Streamable T1} `{Streamable T2}
  (expected : T1) (actual : T2) (file_name : string) (line_num : Z)
  : Exc unit :=
  if equal_to expected actual then inr tt
  else
    let err := "Expected [" ++ stream_out expected ++ "] saw ["
                 ++ stream_out actual ++ "]" in
    fail err file_name line_num.

Definition neq {T1 T2} `{Comparable T1 T2} `{Streamable T1} `{Streamable T2}
  (expected : T1) (actual : T2) (file_name : string) (line_num : Z)
  : Exc unit :=
  if not_equal_to expected actual then inr tt
  else
    let err := "Expected not [" ++ stream_out expected ++ "] saw ["
                 ++ stream_out actual ++ "]" in
    fail err file_name line_num.
End WithHandler.
End Basic_Assert.

(** typedef Basic_Assert<Default_Fail_Handler> assert; *)
Module assert.
Definition fail := @Basic_Assert.fail Default_Fail_Handler.
Definition expr := @Basic_Assert.expr Default_Fail_Handler.
Definition is_true := @Basic_Assert.is_true Default_Fail_Handler.
Definition is_false := @Basic_Assert.is_false Default_Fail_Handler.
Definition is_null {T} := @Basic_Assert.is_null Default_Fail_Handler T.
Definition is_not_null {T} := @Basic_Assert.is_not_null Default_Fail_Handler T.
Definition eq {T1 T2} `{Comparable T1 T2} `{Streamable T1} `{Streamable T2} :=
  @Basic_Assert.eq Default_Fail_Handler T1 T2 _ _ _.
Definition neq {T1 T2} `{Comparable T1 T2} `{Streamable T1} `{Streamable T2} :=
  @Basic_Assert.neq Default_Fail_Handler T1 T2 _ _ _.
End assert.

(** ** User code, Test, Info, Result *)

Section Framework.

(** The mutable state user code can reach. *)
Variable G : Type.

(** Platform constants the header takes from the implementation: the
    width of size_t and the number of steady_clock ticks in one
    millisecond. *)
Variable size_t_bits : Z.
Variable ticks_per_ms : Z.

(** One run of a piece of user code. *)
Record Ran (A : Type) : Type := mkRan {
  after : G;          (* the user state it leaves *)
  ticks : N;          (* steady_clock ticks elapsed while it ran *)
  out   : Exc A       (* value returned, or object thrown *)
}.
Arguments mkRan {A}.
Arguments after {A}.
Arguments ticks {A}.
Arguments out {A}.

Definition UserCode (A : Type) : Type := G -> Ran A.

(** The virtual interface of class Test. *)
Record Test : Type := mkTest {
  pre_test     : UserCode unit;
  execute_test : UserCode unit;
  post_test    : UserCode unit
}.

(** The empty bodies of Test::pre_test and Test::post_test. *)
Definition default_hook : UserCode unit :=
  fun g => mkRan g 0%N (inr tt).

(** class Info; [f] stands for a factory that yields a non-null Test. *)
Record Info : Type := mkInfo {
  f        : UserCode Test;
  name     : string;
  category : string;
  file     : string;
  line     : Z
}.

Record Result : Type := mkResult {
  info        : pointer Info;
  status      : Status.t;
  duration    : Z;          (* std::chrono::milliseconds *)
  err_message : string;
  err_file    : string;
  err_line    : Z
}.

(** Result::Result() *)
Definition Result_new : Result :=
  mkResult nullptr Status.not_run 0 EmptyString EmptyString 0.

(** Result::exception; the argument is the value of ex.what(). *)
Definition Result_exception (ex_what : option string) (r : Result) : Result :=
  let r1 := mkResult (info r) Status.fail (duration r) "unhandled exception"
                     (err_file r) (err_line r) in
  match ex_what with
  | Some w =>
      mkResult (info r1) (status r1) (duration r1)
               ((err_message r1 ++ ": ") ++ w) (err_file r1) (err_line r1)
  | None => r1
  end.

(** Result::fail *)
Definition Result_fail (msg file_name : string) (line_num : Z) (r : Result)
  : Result :=
  mkResult (info r) Status.fail (duration r) msg file_name line_num.

(** ** The framework's state and monad *)

Inductive Call : Type :=
| call_pre_test
| call_execute_test
| call_post_test
| call_factory (ti : Info)
| call_observer (r : Result).

Record State : Type := mkState {
  user  : G;
  clock : Z;                (* std::chrono::steady_clock::now() *)
  res   : Result;           (* the object the reference res denotes *)
  trace : list Call         (* ghost: calls into user code, oldest first *)
}.

Definition M (A : Type) : Type := State -> State * Exc A.

Definition ret {A} (a : A) : M A := fun s => (s, inr a).

Definition bind {A B} (m : M A) (k : A -> M B) : M B :=
  fun s =>
    match m s with
    | (s1, inr a) => k a s1
    | (s1, inl e) => (s1, inl e)
    end.

(** try { body } catch ... : [handler e] is the clause that matches [e],
    None when no clause does and [e] propagates. *)
Definition try_catch {A} (body : M A) (handler : Thrown -> option (M A))
  : M A :=
  fun s =>
    match body s with
    | (s1, inr a) => (s1, inr a)
    | (s1, inl e) =>
        match handler e with
        | Some h => h s1
        | None => (s1, inl e)
        end
    end.

(** Calling into user code: the call is traced, the user state and the
    clock advance, and a thrown object propagates. *)
Definition call {A} (c : Call) (code : UserCode A) : M A :=
  fun s =>
    let r := code (user s) in
    (mkState (after r) (clock s + Z.of_N (ticks r)) (res s)
             (trace s ++ [c]),
     out r).

Definition steady_clock_now : M Z := fun s => (s, inr (clock s)).

Definition get_res : M Result := fun s => (s, inr (res s)).

Definition update_res (upd : Result -> Result) : M unit :=
  fun s => (mkState (user s) (clock s) (upd (res s)) (trace s), inr tt).

Local Notation "x <- c1 ;; c2" := (bind c1 (fun x => c2))
  (at level 61, c1 at next level, right associativity).
Local Notation "c1 ;; c2" := (bind c1 (fun _ => c2))
  (at level 61, right associativity).

(** ** Test::execute *)

Definition set_status (v : Status.t) (r : Result) : Result :=
  mkResult (info r) v (duration r) (err_message r) (err_file r) (err_line r).

Definition set_duration (v : Z) (r : Result) : Result :=
  mkResult (info r) (status r) v (err_message r) (err_file r) (err_line r).

Definition set_info (v : pointer Info) (r : Result) : Result :=
  mkResult v (status r) (duration r) (err_message r) (err_file r) (err_line r).

(** std::chrono::duration_cast<std::chrono::milliseconds>: integer division
    truncating toward zero. *)
Definition duration_cast_milliseconds (d : Z) : Z := Z.quot d ticks_per_ms.

(** The two catch clauses of Test::execute, in order. *)
Definition execute_handlers (e : Thrown) : option (M unit) :=
  match e with
  | assert_fail_exception msg file_name line_num =>
      Some (update_res (Result_fail msg file_name line_num))
  | std_exception ex_what =>
      Some (update_res (Result_exception ex_what))
  | foreign_exception _ => None
  end.

Definition execute (this : Test) : M Status.t :=
  test_start_time <- steady_clock_now ;;
  try_catch
    (call call_pre_test (pre_test this) ;;
     call call_execute_test (execute_test this) ;;
     update_res (set_status Status.pass))
    execute_handlers ;;
  call call_post_test (post_test this) ;;
  test_end_time <- steady_clock_now ;;
  let test_duration :=
    duration_cast_milliseconds (test_end_time - test_start_time) in
  update_res (set_duration test_duration) ;;
  r <- get_res ;;
  ret (status r).

(** ** Runner *)

(** Runner::run(const Info* const ti, Result& out_res) *)
Definition run_single (ti : Info) : M Status.t :=
  tst <- call (call_factory ti) (f ti) ;;
  update_res (set_info (address_of ti)) ;;
  execute tst.

(** ++n on a size_t *)
Definition size_t_incr (n : Z) : Z := (n + 1) mod 2 ^ size_t_bits.

(** The for loop of Runner::run over [itr_begin, itr_end), the range given
    as the list of descriptors it visits; yields (pass, test_count). *)
Fixpoint run_loop (itr : list Info) (filter : Info -> bool)
  (observer : Result -> UserCode unit) (pass test_count : Z) : M (Z * Z) :=
  match itr with
  | [] => ret (pass, test_count)
  | ti :: itr' =>
      if filter ti then
        update_res (fun _ => Result_new) ;;
        r <- run_single ti ;;
        let pass := if Status.eqb r Status.pass then size_t_incr pass
                    else pass in
        let test_count := size_t_incr test_count in
        res <- get_res ;;
        call (call_observer res) (observer res) ;;
        run_loop itr' filter observer pass test_count
      else run_loop itr' filter observer pass test_count
  end.

(** Runner::run(itr_begin, itr_end, filter, observer) *)
Definition run (itr : list Info) (filter : Info -> bool)
  (observer : Result -> UserCode unit) : M Status.t :=
  counts <- run_loop itr filter observer 0 0 ;;
  ret (if fst counts =? snd counts then Status.pass else Status.fail).

(** Runner::run(itr_begin, itr_end, observer) *)
Definition run_all (itr : list Info) (observer : Result -> UserCode unit)
  : M Status.t :=
  run itr (fun _ => true) observer.

End Framework.

Arguments mkRan {G A} after ticks out.
Arguments after {G A} r.
Arguments ticks {G A} r.
Arguments out {G A} r.
Arguments mkTest {G} pre_test execute_test post_test.
Arguments pre_test {G} t.
Arguments execute_test {G} t.
Arguments post_test {G} t.
Arguments default_hook {G} g.
Arguments mkInfo {G} f name category file line.
Arguments f {G} i.
Arguments name {G} i.
Arguments category {G} i.
Arguments file {G} i.
Arguments line {G} i.
Arguments mkResult {G} info status duration err_message err_file err_line.
Arguments info {G} r.
Arguments status {G} r.
Arguments duration {G} r.
Arguments err_message {G} r.
Arguments err_file {G} r.
Arguments err_line {G} r.
Arguments Result_new {G}.
Arguments Result_exception {G} ex_what r.
Arguments Result_fail {G} msg file_name line_num r.
Arguments call_pre_test {G}.
Arguments call_execute_test {G}.
Arguments call_post_test {G}.
Arguments call_factory {G} ti.
Arguments call_observer {G} r.
Arguments mkState {G} user clock res trace.
Arguments user {G} s.
Arguments clock {G} s.
Arguments res {G} s.
Arguments trace {G} s.
Arguments ret {G A} a s.
Arguments bind {G A B} m k s.
Arguments try_catch {G A} body handler s.
Arguments call {G A} c code s.
Arguments steady_clock_now {G} s.
Arguments get_res {G} s.
Arguments update_res {G} upd s.
Arguments set_status {G} v r.
Arguments set_duration {G} v r.
Arguments set_info {G} v r.
Arguments execute_handlers {G} e.
Arguments execute {G} ticks_per_ms this s.
Arguments run_single {G} ticks_per_ms ti s.
Arguments run_loop {G} size_t_bits ticks_per_ms itr filter observer
  pass test_count s.
Arguments run {G} size_t_bits ticks_per_ms itr filter observer s.
Arguments run_all {G} size_t_bits ticks_per_ms itr observer s.

(** ** Observations used by the statements *)

Section Observations.
Variable G : Type.

(** How often the teardown hook was called, according to the trace. *)
Fixpoint post_test_calls (tr : list (Call G)) : nat :=
  match tr with
  | [] => 0%nat
  | call_post_test :: tr' => S (post_test_calls tr')
  | _ :: tr' => post_test_calls tr'
  end.

(** The Results handed to the observer, oldest first. *)
Fixpoint observed (tr : list (Call G)) : list (Result G) :=
  match tr with
  | [] => []
  | call_observer r :: tr' => r :: observed tr'
  | _ :: tr' => observed tr'
  end.

(** The descriptors whose factory was called, oldest first. *)
Fixpoint constructed (tr : list (Call G)) : list (Info G) :=
  match tr with
  | [] => []
  | call_factory ti :: tr' => ti :: constructed tr'
  | _ :: tr' => constructed tr'
  end.

(** What the try block's user code does from user state [g]: the setup
    hook, then, when that returns, the body. *)
Definition setup_then_body (this : Test G) (g : G) : Ran G unit :=
  let r1 := pre_test this g in
  match out r1 with
  | inl e => r1
  | inr _ =>
      let r2 := execute_test this (after r1) in
      mkRan (after r2) (ticks r1 + ticks r2) (out r2)
  end.

(** The catch clauses of Test::execute take assert_fail_exception and
    everything else derived from std::exception. *)
Definition derives_from_std_exception (e : Thrown) : bool :=
  match e with
  | foreign_exception _ => false
  | _ => true
  end.

(** Whether the try/catch of Test::execute lets control reach the
    teardown call after the try block ended with outcome [o]. *)
Definition handled_by_execute (o : Exc unit) : bool :=
  match o with
  | inl e => derives_from_std_exception e
  | inr _ => true
  end.

(** The message Result::exception composes. *)
Definition unhandled_message (ex_what : option string) : string :=
  match ex_what with
  | Some w => "unhandled exception: " ++ w
  | None => "unhandled exception"
  end.

End Observations.

Arguments post_test_calls {G} tr.
Arguments observed {G} tr.
Arguments constructed {G} tr.
Arguments setup_then_body {G} this g.

Section RunnerObservations.
Variable G : Type.
Variable ticks_per_ms : Z.

(** The state right after the declaration [Result res;] in the loop of
    Runner::run. *)
Definition declare_result (s : State G) : State G :=
  mkState (user s) (clock s) Result_new (trace s).

(** [r] is the Result of an execution of descriptor [ti]: the single-test
    entry point, started on a freshly constructed Result in some state,
    returned the status [r] records and left [r] behind. *)
Definition result_of_execution (ti : Info G) (r : Result G) : Prop :=
  exists s : State G,
    snd (run_single ticks_per_ms ti (declare_result s)) = inr (status r) /\
    res (fst (run_single ticks_per_ms ti (declare_result s))) = r.

(** User code that lets no error out of a run: a test whose setup hook
    and body raise nothing but what execute catches and whose teardown
    hook returns, a factory that returns such a test, an observer that
    returns, each from every user state. *)
Definition contained_test (t : Test G) : Prop :=
  forall g : G,
    handled_by_execute (out (setup_then_body t g)) = true /\
    out (post_test t (after (setup_then_body t g))) = inr tt.

Definition contained_descriptor (ti : Info G) : Prop :=
  forall g : G, exists t : Test G, out (f ti g) = inr t /\ contained_test t.

Definition contained_observer (observer : Result G -> UserCode G unit)
  : Prop :=
  forall (r : Result G) (g : G), out (observer r g) = inr tt.

(** How many of the Results record a pass. *)
Definition passed (rs : list (Result G)) : nat :=
  List.length (filter (fun r => Status.eqb (status r) Status.pass) rs).

End RunnerObservations.

Arguments declare_result {G} s.
Arguments result_of_execution {G} ticks_per_ms ti r.
Arguments passed {G} rs.
Arguments contained_test {G} t.
Arguments contained_descriptor {G} ti.
Arguments contained_observer {G} observer.

(** The outcome [o] of a check called with [file_name] and [line_num]
    under the default handler: it returned, or it raised a Failure
    Signal that carries a non-empty message and that call site. *)
Definition returns_or_signals_at (file_name : string) (line_num : Z)
  (o : Exc unit) : Prop :=
  o = inr tt \/
  exists message : string,
    message <> EmptyString /\
    o = inl (assert_fail_exception message file_name line_num).

Section TraceOrder.
Variable G : Type.

(** The factory calls and observer calls of a trace, in order. *)
Fixpoint milestones (tr : list (Call G)) : list (Call G) :=
  match tr with
  | [] => []
  | call_factory ti :: tr' => call_factory ti :: milestones tr'
  | call_observer r :: tr' => call_observer r :: milestones tr'
  | _ :: tr' => milestones tr'
  end.

(** Construct the first test, deliver its Result, construct the second,
    deliver its Result, and so on. *)
Fixpoint alternating (tis : list (Info G)) (rs : list (Result G))
  : list (Call G) :=
  match tis, rs with
  | ti :: tis', r :: rs' =>
      call_factory ti :: call_observer r :: alternating tis' rs'
  | _, _ => []
  end.

End TraceOrder.

Arguments milestones {G} tr.
Arguments alternating {G} tis rs.

(** ** Registry

    The registry is process state that the tests' own code does not
    reach: it is filled by the constructors of the Auto_Registered_Test
    objects during static initialisation and read by run_registered. *)

Section RegistryModel.
Variable G : Type.
Variable size_t_bits : Z.
Variable ticks_per_ms : Z.

(** class Registry: its member _tests, a vector of descriptor pointers. *)
Record Registry : Type := mkRegistry {
  _tests : list (Info G)
}.

(** Registry::add *)
Definition Registry_add (test : Info G) (r : Registry) : Registry :=
  mkRegistry (_tests r ++ [test])%list.

(** Registry::tests *)
Definition Registry_tests (r : Registry) : list (Info G) := _tests r.

(** The function-local [static std::unique_ptr<Registry> instance] of
    Registry::get: None while it is null. *)
Definition Instance : Type := option Registry.

(** Registry::get: creates the registry on first use; yields the value
    the static holds afterwards together with the registry the returned
    reference denotes. *)
Definition Registry_get (instance : Instance) : Instance * Registry :=
  match instance with
  | Some r => (Some r, r)
  | None => (Some (mkRegistry []), mkRegistry [])
  end.

(** The constructor of Auto_Registered_Test: Registry::get().add(info),
    acting on the registry the static owns. *)
Definition Auto_Registered_Test (info : Info G) (instance : Instance)
  : Instance :=
  let (_, r) := Registry_get instance in
  Some (Registry_add info r).

(** Static initialisation of a program that declares the given tests, in
    the order in which their registration objects are constructed. *)
Definition static_initialization (declared : list (Info G))
  (instance : Instance) : Instance :=
  fold_left (fun inst info => Auto_Registered_Test info inst)
    declared instance.

(** Registry::get().tests() *)
Definition registered_tests (instance : Instance) : list (Info G) :=
  Registry_tests (snd (Registry_get instance)).

(** Runner::run_registered(filter, observer): the value of the static
    afterwards, and the run over the registered descriptors. *)
Definition run_registered (instance : Instance) (filter : Info G -> bool)
  (observer : Result G -> UserCode G unit) : Instance * M G Status.t :=
  let (instance', r) := Registry_get instance in
  (instance', run size_t_bits ticks_per_ms (Registry_tests r) filter observer).

(** Runner::run_registered(observer) *)
Definition run_registered_all (instance : Instance)
  (observer : Result G -> UserCode G unit) : Instance * M G Status.t :=
  let (instance', r) := Registry_get instance in
  (instance',
   run size_t_bits ticks_per_ms (Registry_tests r) (fun _ => true) observer).

End RegistryModel.

Arguments mkRegistry {G} _tests.
Arguments _tests {G} r.
Arguments Registry_add {G} test r.
Arguments Registry_tests {G} r.
Arguments Registry_get {G} instance.
Arguments Auto_Registered_Test {G} info instance.
Arguments static_initialization {G} declared instance.
Arguments registered_tests {G} instance.
Arguments run_registered {G} size_t_bits ticks_per_ms instance filter observer.
Arguments run_registered_all {G} size_t_bits ticks_per_ms instance observer.

(** ** Concrete tests used to exercise the statements

    The user state is a counter that the sample hooks increment. *)
Module Samples.

Definition hook (cost : N) (outcome : Exc unit) : UserCode Z unit :=
  fun g => mkRan (g + 1) cost outcome.

Definition returns : Exc unit := inr tt.

(** TEST(passing, ...) { } taking 2.5 ms at 10^6 ticks per ms *)
Definition passing : Test Z :=
  mkTest default_hook (hook 2500000 returns) default_hook.

(** A body that runs UASSERT_FAIL("boom") at t.cpp:42 *)
Definition asserting : Test Z :=
  mkTest (hook 10 returns) (hook 20 (assert.fail "boom" "t.cpp" 42))
         (hook 30 returns).

(** A body that runs UASSERT_FAIL with an empty message at t.cpp:7 *)
Definition asserting_empty : Test Z :=
  mkTest default_hook (hook 20 (assert.fail EmptyString "t.cpp" 7))
         default_hook.

(** A body that throws std::runtime_error("disk full") *)
Definition throwing : Test Z :=
  mkTest default_hook (hook 5 (inl (std_exception (Some "disk full"))))
         (hook 1 returns).

(** A body that throws a std::runtime_error with an empty message *)
Definition throwing_empty : Test Z :=
  mkTest default_hook (hook 5 (inl (std_exception (Some EmptyString))))
         default_hook.

(** A body that throws an exception whose what() returns nullptr *)
Definition throwing_null : Test Z :=
  mkTest default_hook (hook 5 (inl (std_exception None))) default_hook.

(** A body that runs [throw 42;] *)
Definition throwing_int : Test Z :=
  mkTest default_hook (hook 5 (inl (foreign_exception "int")))
         (hook 1 returns).

(** A fixture whose TEARDOWN throws std::runtime_error("teardown failed") *)
Definition teardown_throwing : Test Z :=
  mkTest default_hook (hook 5 returns)
         (hook 1 (inl (std_exception (Some "teardown failed")))).

Definition descriptor (t : Test Z) (name category : string) : Info Z :=
  mkInfo (fun g => mkRan g 0%N (inr t)) name category "t.cpp" 1.

(** Initial state: counter 0, clock reading 1000, a fresh Result. *)
Definition start : State Z := mkState 0 1000 Result_new [].

(** A Result left behind by an earlier failed execution. *)
Definition stale : Result Z :=
  mkResult nullptr Status.fail 3 "old failure" "old.cpp" 99.

Definition start_stale : State Z := mkState 0 1000 stale [].

(** An observer that only counts its calls in the user state. *)
Definition counting_observer : Result Z -> UserCode Z unit :=
  fun _ g => mkRan (g + 100) 0%N (inr tt).

Definition is_fast (ti : Info Z) : bool := String.eqb (category ti) "fast".

(** Five registered descriptors, two of them in category "fast". *)
Definition registry : list (Info Z) :=
  [ descriptor passing "a" "fast";
    descriptor asserting "b" "slow";
    descriptor passing "c" "fast";
    descriptor throwing "d" "slow";
    descriptor throwing_int "e" "slow" ].


(** One millisecond of a nanosecond steady_clock; a 64-bit size_t. *)
Definition ns_per_ms : Z := 1000000.
Definition bits64 : Z := 64.




(** Runner::run over the registry with the "fast" filter. *)
Definition fast_run : State Z * Exc Status.t :=
  run bits64 ns_per_ms registry is_fast counting_observer start.


(** A fixture whose SETUP runs UASSERT_FAIL("no database") at fx.cpp:3 *)
Definition setup_asserting : Test Z :=
  mkTest (hook 10 (assert.fail "no database" "fx.cpp" 3))
         (hook 20 returns) (hook 30 returns).

(** A test that takes 0.3 ms over its three hooks. *)
Definition quick : Test Z :=
  mkTest (hook 100000 returns) (hook 100000 returns) (hook 100000 returns).

Definition fast_part : list (Info Z) :=
  [ descriptor passing "a" "fast"; descriptor quick "q" "fast" ].

End Samples.

(** * Properties *)


(** ** Assertion layer *)

(** C4 (as the code has it): is_null returns normally on a null pointer
    and raises the Failure Signal with message "Expected [nullptr]" on a
    non-null one; is_not_null returns normally on a non-null pointer and
    raises with message "Expected not [nullptr]" on a null one.  The
    signal carries the call site's file and line. *)
Theorem is_null_is_not_null_messages :
  forall (T : Type) (target : T) (file_name : string) (line_num : Z),
    assert.is_null (@nullptr T) file_name line_num = inr tt /\
    assert.is_null (address_of target) file_name line_num =
      inl (assert_fail_exception "Expected [nullptr]" file_name line_num) /\
    assert.is_not_null (address_of target) file_name line_num = inr tt /\
    assert.is_not_null (@nullptr T) file_name line_num =
      inl (assert_fail_exception "Expected not [nullptr]" file_name line_num).
Proof.
  intros T target file_name line_num.
  repeat split.
Qed.

(** C4, as stated, fails: on the null pointer is_not_null raises, but its
    message is "Expected not [nullptr]", not "Expected not [null]"; and
    is_null on a non-null pointer raises "Expected [nullptr]", not
    "Expected [null]". *)
Lemma is_not_null_message_is_not_null_literal :
  assert.is_not_null (@nullptr nat) "t.cpp" 12 <>
    inl (assert_fail_exception "Expected not [null]" "t.cpp" 12) /\
  assert.is_null (address_of 5%nat) "t.cpp" 12 <>
    inl (assert_fail_exception "Expected [null]" "t.cpp" 12).
Proof.
  split; intro H; vm_compute in H; discriminate H.
Qed.

(** Unfolds execute down to its three calls into user code and splits on
    what each of them does. *)
Ltac simpl_state :=
  cbn [fst snd user clock res trace after ticks out] in *.

Ltac split_outcome r :=
  destruct r as [? ? [[] | []]]; simpl_state; try discriminate.

Ltac run_hooks this s :=
  unfold execute, setup_then_body, execute_handlers, bind, try_catch, call,
    steady_clock_now, update_res, get_res, ret in *;
  simpl_state;
  split_outcome (pre_test this (user s));
  repeat match goal with
         | |- context [out (execute_test this ?g)] =>
             split_outcome (execute_test this g)
         | |- context [out (post_test this ?g)] =>
             split_outcome (post_test this g)
         | H : context [out (execute_test this ?g)] |- _ =>
             split_outcome (execute_test this g)
         | H : context [out (post_test this ?g)] |- _ =>
             split_outcome (post_test this g)
         end.

(** ** Test::execute *)

Section ExecuteProperties.
Variable G : Type.
Variable ticks_per_ms : Z.

(** C5: when the setup hook returns and the body raises a Failure Signal
    with message M, file F and line L, the Result after execute has
    status fail, err_message M, err_file F and err_line L, whatever the
    teardown hook does and whatever the Result held before. *)
Theorem execute_failure_signal :
  forall (this : Test G) (s : State G) (M F : string) (L : Z),
    out (pre_test this (user s)) = inr tt ->
    out (execute_test this (after (pre_test this (user s)))) =
      inl (assert_fail_exception M F L) ->
    let r := res (fst (execute ticks_per_ms this s)) in
    status r = Status.fail /\ err_message r = M /\
    err_file r = F /\ err_line r = L.
Proof.
  intros this s M F L Hpre Hbody.
  run_hooks this s; inversion Hbody; subst; cbn; auto.
Qed.

(** C3 (as the code has it): when the setup hook returns and the body
    raises an error derived from std::exception other than the Failure
    Signal, the Result after execute has status fail; err_message is
    "unhandled exception: " followed by the description D whenever what()
    yields a string D, the empty string included (then the message ends
    in the colon and space), and is the bare "unhandled exception" only
    when what() yields a null pointer; err_file and err_line are left as
    they were, hence at their defaults for a freshly constructed
    Result. *)
Theorem execute_std_exception :
  forall (this : Test G) (s : State G) (ex_what : option string),
    out (pre_test this (user s)) = inr tt ->
    out (execute_test this (after (pre_test this (user s)))) =
      inl (std_exception ex_what) ->
    let r := res (fst (execute ticks_per_ms this s)) in
    status r = Status.fail /\
    match ex_what with
    | Some D => err_message r = "unhandled exception: " ++ D
    | None => err_message r = "unhandled exception"
    end /\
    err_file r = err_file (res s) /\ err_line r = err_line (res s).
Proof.
  intros this s ex_what Hpre Hbody.
  run_hooks this s; inversion Hbody; subst;
    destruct ex_what; cbn; auto.
Qed.

(** C10: when the setup hook, the body and the teardown hook all return,
    execute returns pass and the Result it leaves is the Result it was
    given with only status (now pass) and duration (now the elapsed
    milliseconds) replaced; info, err_message, err_file and err_line keep
    the values they had before the call. *)
Theorem execute_pass_frame :
  forall (this : Test G) (s : State G),
    out (setup_then_body this (user s)) = inr tt ->
    out (post_test this (after (setup_then_body this (user s)))) = inr tt ->
    let s' := fst (execute ticks_per_ms this s) in
    snd (execute ticks_per_ms this s) = inr Status.pass /\
    res s' =
      mkResult (info (res s)) Status.pass
        (duration_cast_milliseconds ticks_per_ms (clock s' - clock s))
        (err_message (res s)) (err_file (res s)) (err_line (res s)).
Proof.
  intros this s Hbody Hpost.
  run_hooks this s; cbn; auto.
Qed.

Lemma post_test_calls_app (tr1 tr2 : list (Call G)) :
  post_test_calls (tr1 ++ tr2) =
    (post_test_calls tr1 + post_test_calls tr2)%nat.
Proof.
  induction tr1 as [| c tr1 IH]; [reflexivity |].
  destruct c; cbn; rewrite IH; reflexivity.
Qed.

(** C2 (as the code has it): execute calls the teardown hook exactly once
    when the setup hook and the body return or raise an error derived
    from std::exception (the Failure Signal included), and does not call
    it at all when one of them raises an object that is not derived from
    std::exception. *)
Theorem execute_teardown_calls :
  forall (this : Test G) (s : State G),
    let before := post_test_calls (trace s) in
    let after_execute :=
      post_test_calls (trace (fst (execute ticks_per_ms this s))) in
    (handled_by_execute (out (setup_then_body this (user s))) = true ->
     after_execute = S before) /\
    (handled_by_execute (out (setup_then_body this (user s))) = false ->
     after_execute = before).
Proof.
  intros this s.
  run_hooks this s; cbn; split; intro H; try discriminate H;
    rewrite !post_test_calls_app; cbn; lia.
Qed.

(** C1 (as the code has it): when the setup hook and the body return or
    raise an error derived from std::exception (the Failure Signal
    included) and the teardown hook returns, execute returns a Status;
    that Status is the Result's status and is pass or fail, the duration
    is the elapsed time in milliseconds, and the error fields describe
    the outcome: the signal's message, file and line after a Failure
    Signal, the composed "unhandled exception" message after another
    std::exception. *)
Theorem execute_returns_when_handled :
  forall (this : Test G) (s : State G),
    handled_by_execute (out (setup_then_body this (user s))) = true ->
    out (post_test this (after (setup_then_body this (user s)))) = inr tt ->
    let s' := fst (execute ticks_per_ms this s) in
    exists st : Status.t,
      snd (execute ticks_per_ms this s) = inr st /\
      status (res s') = st /\
      st <> Status.not_run /\
      duration (res s') =
        duration_cast_milliseconds ticks_per_ms (clock s' - clock s) /\
      match out (setup_then_body this (user s)) with
      | inr _ => st = Status.pass
      | inl (assert_fail_exception M F L) =>
          st = Status.fail /\ err_message (res s') = M /\
          err_file (res s') = F /\ err_line (res s') = L
      | inl (std_exception ex_what) =>
          st = Status.fail /\
          err_message (res s') = unhandled_message ex_what
      | inl (foreign_exception _) => False
      end.
Proof.
  intros this s Hhandled Hpost.
  run_hooks this s; cbn;
    try match goal with
        | |- context [Result_exception ?w _] => destruct w
        end;
    cbn; eexists; repeat split; try reflexivity; discriminate.
Qed.

(** The errors execute lets through: an object not derived from
    std::exception raised by the setup hook or the body, and whatever the
    teardown hook raises. *)
Lemma execute_escapes_iff :
  forall (this : Test G) (s : State G) (e : Thrown),
    snd (execute ticks_per_ms this s) = inl e <->
    (out (setup_then_body this (user s)) = inl e /\
     derives_from_std_exception e = false) \/
    (handled_by_execute (out (setup_then_body this (user s))) = true /\
     out (post_test this (after (setup_then_body this (user s)))) = inl e).
Proof.
  intros this s e.
  run_hooks this s; cbn; split;
    try (intros [[H1 H2] | [H1 H2]]); try intro H;
    try discriminate; try (inversion H1; subst; discriminate);
    try (inversion H; subst; cbn; auto; fail);
    try (inversion H2; subst; reflexivity);
    try (inversion H1; subst; reflexivity).
Qed.

Lemma execute_returns (this : Test G) (s : State G) :
  handled_by_execute (out (setup_then_body this (user s))) = true ->
  out (post_test this (after (setup_then_body this (user s)))) = inr tt ->
  exists st : Status.t, snd (execute ticks_per_ms this s) = inr st.
Proof.
  intros Hhandled Hpost.
  destruct (snd (execute ticks_per_ms this s)) as [e | st] eqn:E;
    [| exists st; reflexivity].
  apply execute_escapes_iff in E.
  destruct E as [[Hraise Hforeign] | [_ Hraise]].
  - rewrite Hraise in Hhandled. cbn in Hhandled. congruence.
  - congruence.
Qed.

Hypothesis ticks_per_ms_pos : 0 < ticks_per_ms.

(** C8 (as the code has it): when the setup hook, the body and the
    teardown hook all return and the Result handed in has an empty
    err_message (as a freshly constructed Result has), execute returns
    pass and the Result has status pass, an empty err_message and a duration
    that is not negative. *)
Theorem execute_pass_fresh :
  forall (this : Test G) (s : State G),
    err_message (res s) = EmptyString ->
    out (setup_then_body this (user s)) = inr tt ->
    out (post_test this (after (setup_then_body this (user s)))) = inr tt ->
    let r := res (fst (execute ticks_per_ms this s)) in
    snd (execute ticks_per_ms this s) = inr Status.pass /\
    status r = Status.pass /\ err_message r = EmptyString /\ 0 <= duration r.
Proof.
  intros this s Hfresh Hbody Hpost.
  run_hooks this s; cbn; repeat split; auto.
  unfold duration_cast_milliseconds.
  apply Z.quot_pos; lia.
Qed.

(** C9 (as the code has it): after executing any test on a Result whose
    error fields are at their defaults (a freshly constructed Result,
    stamped with a descriptor or not): if status is fail then err_message
    is non-empty unless the setup hook or the body raised a Failure
    Signal whose message is empty, as fail does when given the empty
    string, in which case
    err_message is that empty message; and if status is pass then
    err_message and err_file are empty and err_line is 0. *)
Theorem execute_result_invariant :
  forall (this : Test G) (s : State G),
    status (res s) = Status.not_run ->
    err_message (res s) = EmptyString ->
    err_file (res s) = EmptyString ->
    err_line (res s) = 0 ->
    let r := res (fst (execute ticks_per_ms this s)) in
    (status r = Status.fail ->
     err_message r <> EmptyString \/
     exists (F : string) (L : Z),
       out (setup_then_body this (user s)) =
         inl (assert_fail_exception EmptyString F L)) /\
    (status r = Status.pass ->
     err_message r = EmptyString /\ err_file r = EmptyString /\ err_line r = 0).
Proof.
  intros this s Hst Hmsg Hfile Hline.
  run_hooks this s;
    repeat match goal with
           | w : option string |- _ => destruct w
           end;
    cbn; split; intro H;
    try (rewrite Hst in H; discriminate H);
    try discriminate H; auto;
    try (left; discriminate);
    match goal with
    | |- context [assert_fail_exception ?m ?fl ?ln] =>
        destruct m;
        [ right; exists fl, ln; reflexivity | left; discriminate ]
    end.
Qed.

End ExecuteProperties.

(** ** Runner *)

Section RunnerProperties.
Local Open Scope list_scope.
Variable G : Type.
Variable size_t_bits : Z.
Variable ticks_per_ms : Z.

Lemma observed_app (tr1 tr2 : list (Call G)) :
  observed (tr1 ++ tr2) = observed tr1 ++ observed tr2.
Proof.
  induction tr1 as [| c tr1 IH]; [reflexivity |].
  destruct c; cbn; rewrite IH; reflexivity.
Qed.

Lemma constructed_app (tr1 tr2 : list (Call G)) :
  constructed (tr1 ++ tr2) = constructed tr1 ++ constructed tr2.
Proof.
  induction tr1 as [| c tr1 IH]; [reflexivity |].
  destruct c; cbn; rewrite IH; reflexivity.
Qed.

(** What execute leaves untouched, and what its return value is. *)
Lemma execute_frame (this : Test G) (s : State G) :
  let s' := fst (execute ticks_per_ms this s) in
  observed (trace s') = observed (trace s) /\
  constructed (trace s') = constructed (trace s) /\
  info (res s') = info (res s) /\
  (forall st, snd (execute ticks_per_ms this s) = inr st ->
              status (res s') = st).
Proof.
  run_hooks this s; cbn;
    rewrite ?observed_app, ?constructed_app; cbn;
    rewrite ?app_nil_r;
    repeat match goal with
           | w : option string |- _ => destruct w
           end;
    cbn; repeat split; intros st H; inversion H; reflexivity.
Qed.

(** The single-test entry point calls the factory once, stamps the Result
    with the descriptor when the factory returns, and hands the observer
    nothing. *)
Lemma run_single_frame (ti : Info G) (s : State G) :
  let s' := fst (run_single ticks_per_ms ti s) in
  observed (trace s') = observed (trace s) /\
  constructed (trace s') = constructed (trace s) ++ [ti] /\
  (forall st, snd (run_single ticks_per_ms ti s) = inr st ->
              status (res s') = st /\ info (res s') = address_of ti).
Proof.
  unfold run_single, bind, call, update_res.
  destruct (f ti (user s)) as [g0 k0 [e | tst]]; simpl_state.
  - rewrite observed_app, constructed_app; cbn.
    rewrite app_nil_r. repeat split; intros; discriminate.
  - match goal with
    | |- context [execute _ tst ?s0] =>
        destruct (execute_frame tst s0) as (Hobs & Hcon & Hinfo & Hst)
    end.
    simpl_state.
    destruct (execute ticks_per_ms tst _) as [s1 o1]; simpl_state.
    rewrite Hobs, Hcon, Hinfo, observed_app, constructed_app; cbn.
    rewrite app_nil_r. repeat split; auto.
Qed.

Lemma bind_ext {A B : Type} (m : M G A) (k1 k2 : A -> M G B) (s : State G) :
  (forall a s1, k1 a s1 = k2 a s1) -> bind m k1 s = bind m k2 s.
Proof.
  intro H. unfold bind. destruct (m s) as [s1 [e | a]]; auto.
Qed.

Variable filter : Info G -> bool.
Variable observer : Result G -> UserCode G unit.


Lemma passed_cons (r : Result G) (rs : list (Result G)) :
  passed (r :: rs) =
    if Status.eqb (status r) Status.pass then S (passed rs) else passed rs.
Proof.
  unfold passed. cbn [List.filter].
  destruct (Status.eqb (status r) Status.pass); reflexivity.
Qed.

(** The loop of Runner::run, whatever its outcome: the observer has been
    handed the Results of the first [n] accepted descriptors, in order,
    and nothing else; only accepted descriptors were constructed.  When
    the loop returns, [n] is the number of accepted descriptors and the
    two counters have been incremented once per pass and once per
    execution. *)
Lemma run_loop_trace (itr : list (Info G)) :
  forall (pass test_count : Z) (s s' : State G) (o : Exc (Z * Z)),
    run_loop size_t_bits ticks_per_ms itr filter observer
      pass test_count s = (s', o) ->
    exists (n : nat) (rs : list (Result G)),
      observed (trace s') = observed (trace s) ++ rs /\
      Forall2 (result_of_execution ticks_per_ms)
        (firstn n (List.filter filter itr)) rs /\
      (exists m : nat,
         constructed (trace s') =
           constructed (trace s) ++ firstn m (List.filter filter itr)) /\
      (forall pass' test_count' : Z,
         o = inr (pass', test_count') ->
         n = List.length (List.filter filter itr) /\
         constructed (trace s') =
           constructed (trace s) ++ List.filter filter itr /\
         pass' = Nat.iter (passed rs) (size_t_incr size_t_bits) pass /\
         test_count' =
           Nat.iter (List.length rs) (size_t_incr size_t_bits) test_count).
Proof.
  induction itr as [| ti itr IH]; intros pass test_count s s' o H.
  - cbn in H. inversion H; subst s' o.
    exists 0%nat, []. cbn. rewrite !app_nil_r.
    repeat split; try constructor.
    + exists 0%nat. rewrite app_nil_r. reflexivity.
    + inversion H0; reflexivity.
    + inversion H0; reflexivity.
  - cbn [run_loop List.filter] in H |- *.
    destruct (filter ti) eqn:Hf; [| exact (IH _ _ _ _ _ H)].
    unfold bind at 1, update_res at 1 in H. simpl_state.
    change (mkState (user s) (clock s) Result_new (trace s))
      with (declare_result s) in H.
    destruct (run_single_frame ti (declare_result s)) as (Hobs & Hcon & Hst).
    unfold bind at 1 in H.
    destruct (run_single ticks_per_ms ti (declare_result s))
      as [s1 [e | r]] eqn:Hrun; simpl_state;
      cbn [declare_result trace] in Hobs, Hcon.
    + (* the factory or the execution lets an error through *)
      inversion H; subst s' o.
      exists 0%nat, []. cbn [firstn]. rewrite app_nil_r.
      repeat split; auto; try constructor; try discriminate.
      exists 1%nat. cbn [firstn]. exact Hcon.
    + destruct (Hst r eq_refl) as [Hr _].
      assert (Hres : result_of_execution ticks_per_ms ti (res s1)).
      { exists s. rewrite Hrun. simpl_state. rewrite Hr. auto. }
      unfold bind at 1, get_res at 1 in H. simpl_state.
      unfold bind at 1, call at 1 in H. simpl_state.
      destruct (observer (res s1) (user s1)) as [g2 k2 [e | []]];
        simpl_state.
      * (* the observer lets an error through *)
        inversion H; subst s' o. simpl_state.
        exists 1%nat, [res s1]. cbn [firstn].
        rewrite observed_app, constructed_app, Hobs, Hcon. cbn.
        rewrite app_nil_r.
        repeat split; auto; try discriminate.
        exists 1%nat. reflexivity.
      * destruct (IH _ _ _ _ _ H)
          as (n & rs & Hobs' & Hrs & [m Hm] & Hret).
        simpl_state.
        exists (S n), (res s1 :: rs). cbn [firstn].
        rewrite Hobs', observed_app, Hobs. cbn [observed].
        split; [rewrite <- app_assoc; reflexivity |].
        split; [constructor; assumption |].
        split.
        { exists (S m). rewrite Hm, constructed_app, Hcon. cbn.
          rewrite ?app_nil_r, <- ?app_assoc. reflexivity. }
        intros pass' test_count' Hx.
        destruct (Hret pass' test_count' Hx) as (Hn & Hcon' & Hp & Hc).
        rewrite Hcon', constructed_app, Hcon. cbn [constructed].
        rewrite ?app_nil_r, <- ?app_assoc.
        split; [cbn [List.length]; congruence |].
        split; [reflexivity |].
        split.
        -- rewrite Hp, passed_cons, Hr.
           destruct (Status.eqb r Status.pass);
             [rewrite Nat.iter_succ_r |]; reflexivity.
        -- rewrite Hc. cbn [List.length]. rewrite Nat.iter_succ_r.
           reflexivity.
Qed.

Lemma run_unfold (itr : list (Info G)) (s : State G) :
  run size_t_bits ticks_per_ms itr filter observer s =
    match run_loop size_t_bits ticks_per_ms itr filter observer 0 0 s with
    | (s1, inr counts) =>
        (s1, inr (if fst counts =? snd counts then Status.pass
                  else Status.fail))
    | (s1, inl e) => (s1, inl e)
    end.
Proof.
  unfold run, bind, ret.
  destruct (run_loop _ _ _ _ _ _ _ _) as [s1 [e | counts]]; reflexivity.
Qed.

(** A run over descriptors and an observer that let no error out returns
    a status. *)
Lemma run_loop_returns (itr : list (Info G)) :
  Forall (contained_descriptor (G := G)) (List.filter filter itr) ->
  contained_observer observer ->
  forall (pass test_count : Z) (s : State G),
    exists counts : Z * Z,
      snd (run_loop size_t_bits ticks_per_ms itr filter observer
             pass test_count s) = inr counts.
Proof.
  intros Hitr Hobs.
  induction itr as [| ti itr IH]; intros pass test_count s.
  - exists (pass, test_count). reflexivity.
  - cbn [run_loop List.filter] in Hitr |- *.
    destruct (filter ti); [| apply IH; exact Hitr].
    inversion Hitr as [| ? ? Hti Hrest]; subst.
    unfold bind at 1, update_res at 1. simpl_state.
    unfold bind at 1, run_single at 1.
    unfold bind at 1, call at 1. simpl_state.
    destruct (Hti (user s)) as (t & Hf & Ht).
    destruct (f ti (user s)) as [g0 k0 o0]. simpl_state. subst o0.
    unfold bind at 1, update_res at 1. simpl_state.
    match goal with
    | |- context [execute _ t ?s0] =>
        destruct (Ht (user s0)) as [Hhandled Hpost];
        destruct (execute_returns G ticks_per_ms t s0 Hhandled Hpost)
          as [st Hst];
        destruct (execute ticks_per_ms t s0) as [s1 o1]
    end.
    simpl_state. subst o1.
    unfold bind at 1, get_res at 1. simpl_state.
    unfold bind at 1, call at 1. simpl_state.
    rewrite Hobs.
    apply IH. exact Hrest.
Qed.

Lemma run_returns (itr : list (Info G)) (s : State G) :
  Forall (contained_descriptor (G := G)) (List.filter filter itr) ->
  contained_observer observer ->
  exists st : Status.t,
    snd (run size_t_bits ticks_per_ms itr filter observer s) = inr st.
Proof.
  intros Hitr Hobs.
  rewrite run_unfold.
  destruct (run_loop_returns itr Hitr Hobs 0 0 s) as [counts Hcounts].
  destruct (run_loop _ _ _ _ _ _ _ _) as [s1 o1]. simpl_state. subst o1.
  eexists. reflexivity.
Qed.


Hypothesis size_t_bits_nonneg : 0 <= size_t_bits.

Lemma size_t_incr_iter (n : nat) :
  Nat.iter n (size_t_incr size_t_bits) 0 = Z.of_nat n mod 2 ^ size_t_bits.
Proof.
  assert (Hm : 0 < 2 ^ size_t_bits) by (apply Z.pow_pos_nonneg; lia).
  induction n as [| n IH].
  - change (0 = 0 mod 2 ^ size_t_bits).
    rewrite Z.mod_0_l by lia. reflexivity.
  - rewrite Nat.iter_succ, IH. unfold size_t_incr.
    rewrite Z.add_mod_idemp_l by lia.
    rewrite Nat2Z.inj_succ. reflexivity.
Qed.

Lemma passed_le (rs : list (Result G)) : (passed rs <= List.length rs)%nat.
Proof. unfold passed. apply List.filter_length_le. Qed.



End RunnerProperties.

(** * The statements at concrete tests *)

Module Checks.
Import Samples.

(** C1, as stated, fails: an error raised by the teardown hook escapes
    execute, which then returns no Status and never sets the duration,
    and so does an object not derived from std::exception raised by the
    body, which leaves the status at not_run. *)
Lemma execute_lets_errors_escape :
  execute ns_per_ms teardown_throwing start =
    (mkState 2 1006 (mkResult nullptr Status.pass 0 EmptyString EmptyString 0)
       [call_pre_test; call_execute_test; call_post_test],
     inl (std_exception (Some "teardown failed"))) /\
  execute ns_per_ms throwing_int start =
    (mkState 1 1005
       (mkResult nullptr Status.not_run 0 EmptyString EmptyString 0)
       [call_pre_test; call_execute_test],
     inl (foreign_exception "int")).
Proof. split; reflexivity. Qed.

Lemma execute_returns_when_handled_witness :
  handled_by_execute (out (setup_then_body asserting (user start))) = true /\
  out (post_test asserting (after (setup_then_body asserting (user start))))
    = inr tt /\
  let s' := fst (execute ns_per_ms asserting start) in
  exists st : Status.t,
    snd (execute ns_per_ms asserting start) = inr st /\
    status (res s') = st /\
    st <> Status.not_run /\
    duration (res s') =
      duration_cast_milliseconds ns_per_ms (clock s' - clock start) /\
    (st = Status.fail /\ err_message (res s') = "boom" /\
     err_file (res s') = "t.cpp" /\ err_line (res s') = 42).
Proof.
  split; [reflexivity |]. split; [reflexivity |].
  exact (execute_returns_when_handled Z ns_per_ms asserting start
           eq_refl eq_refl).
Defined.

(** C2, as stated, fails: when the body raises an object that is not
    derived from std::exception, execute never calls the teardown
    hook. *)
Lemma execute_skips_teardown_on_foreign_exception :
  out (execute_test throwing_int (after (pre_test throwing_int (user start))))
    = inl (foreign_exception "int") /\
  trace (fst (execute ns_per_ms throwing_int start)) =
    [call_pre_test; call_execute_test] /\
  post_test_calls (trace (fst (execute ns_per_ms throwing_int start))) = 0%nat.
Proof. repeat split. Qed.

Lemma execute_teardown_calls_witness :
  handled_by_execute (out (setup_then_body asserting (user start))) = true /\
  post_test_calls (trace (fst (execute ns_per_ms asserting start))) =
    S (post_test_calls (trace start)).
Proof.
  split; [reflexivity |].
  exact (proj1 (execute_teardown_calls Z ns_per_ms asserting start) eq_refl).
Defined.

(** C3, as stated, fails: for a body that throws a std::runtime_error
    with an empty message the description D is empty, yet err_message is
    "unhandled exception: " with the colon and the space, not the bare
    "unhandled exception". *)
Lemma execute_empty_description_keeps_colon :
  out (execute_test throwing_empty
         (after (pre_test throwing_empty (user start)))) =
    inl (std_exception (Some EmptyString)) /\
  err_message (res (fst (execute ns_per_ms throwing_empty start))) =
    "unhandled exception: " /\
  err_message (res (fst (execute ns_per_ms throwing_empty start))) <>
    "unhandled exception".
Proof. repeat split. intro H. vm_compute in H. discriminate H. Qed.

Lemma execute_std_exception_witness :
  out (pre_test throwing (user start)) = inr tt /\
  out (execute_test throwing (after (pre_test throwing (user start)))) =
    inl (std_exception (Some "disk full")) /\
  let r := res (fst (execute ns_per_ms throwing start)) in
  status r = Status.fail /\
  err_message r = "unhandled exception: disk full" /\
  err_file r = EmptyString /\ err_line r = 0.
Proof.
  split; [reflexivity |]. split; [reflexivity |].
  exact (execute_std_exception Z ns_per_ms throwing start
           (Some "disk full") eq_refl eq_refl).
Defined.

Lemma execute_failure_signal_witness :
  out (pre_test asserting (user start)) = inr tt /\
  out (execute_test asserting (after (pre_test asserting (user start)))) =
    inl (assert_fail_exception "boom" "t.cpp" 42) /\
  let r := res (fst (execute ns_per_ms asserting start)) in
  status r = Status.fail /\ err_message r = "boom" /\
  err_file r = "t.cpp" /\ err_line r = 42.
Proof.
  split; [reflexivity |]. split; [reflexivity |].
  exact (execute_failure_signal Z ns_per_ms asserting start
           "boom" "t.cpp" 42 eq_refl eq_refl).
Defined.

(** C8, as stated, fails in two ways.  A test whose setup hook and body
    return but whose teardown hook throws makes execute return nothing
    and leaves the duration unset; and a test whose hooks all return, run
    on a Result that an earlier failure filled in, passes with
    err_message still "old failure". *)
Lemma execute_pass_without_empty_message :
  (out (setup_then_body teardown_throwing (user start)) = inr tt /\
   snd (execute ns_per_ms teardown_throwing start) =
     inl (std_exception (Some "teardown failed"))) /\
  (out (setup_then_body passing (user start_stale)) = inr tt /\
   snd (execute ns_per_ms passing start_stale) = inr Status.pass /\
   err_message (res (fst (execute ns_per_ms passing start_stale))) =
     "old failure").
Proof. repeat split. Qed.

Lemma execute_pass_fresh_witness :
  0 < ns_per_ms /\
  err_message (res start) = EmptyString /\
  out (setup_then_body passing (user start)) = inr tt /\
  out (post_test passing (after (setup_then_body passing (user start)))) =
    inr tt /\
  let r := res (fst (execute ns_per_ms passing start)) in
  snd (execute ns_per_ms passing start) = inr Status.pass /\
  status r = Status.pass /\ err_message r = EmptyString /\ 0 <= duration r.
Proof.
  split; [reflexivity |]. split; [reflexivity |].
  split; [reflexivity |]. split; [reflexivity |].
  exact (execute_pass_fresh Z ns_per_ms eq_refl passing start
           eq_refl eq_refl eq_refl).
Defined.

(** C9, as stated, fails: a body that runs fail with the empty string as
    message leaves a Result with status fail and an empty err_message;
    and a passing run on a Result that an earlier failure filled in
    leaves status pass with the old error fields in place. *)
Lemma execute_fail_with_empty_message :
  execute_test asserting_empty 0 =
    mkRan 1 20%N (assert.fail EmptyString "t.cpp" 7) /\
  (status (res (fst (execute ns_per_ms asserting_empty start))) =
     Status.fail /\
   err_message (res (fst (execute ns_per_ms asserting_empty start))) =
     EmptyString) /\
  res (fst (execute ns_per_ms passing start_stale)) =
    mkResult nullptr Status.pass 2 "old failure" "old.cpp" 99.
Proof. repeat split. Qed.

Lemma execute_result_invariant_witness :
  status (res start) = Status.not_run /\
  err_message (res start) = EmptyString /\
  err_file (res start) = EmptyString /\
  err_line (res start) = 0 /\
  let r := res (fst (execute ns_per_ms throwing start)) in
  (status r = Status.fail ->
   err_message r <> EmptyString \/
   exists (F : string) (L : Z),
     out (setup_then_body throwing (user start)) =
       inl (assert_fail_exception EmptyString F L)) /\
  (status r = Status.pass ->
   err_message r = EmptyString /\ err_file r = EmptyString /\ err_line r = 0).
Proof.
  split; [reflexivity |]. split; [reflexivity |].
  split; [reflexivity |]. split; [reflexivity |].
  exact (execute_result_invariant Z ns_per_ms throwing start
           eq_refl eq_refl eq_refl eq_refl).
Defined.

Lemma execute_pass_frame_witness :
  out (setup_then_body passing (user start_stale)) = inr tt /\
  out (post_test passing (after (setup_then_body passing (user start_stale))))
    = inr tt /\
  snd (execute ns_per_ms passing start_stale) = inr Status.pass /\
  res (fst (execute ns_per_ms passing start_stale)) =
    mkResult (info stale) Status.pass
      (duration_cast_milliseconds ns_per_ms
         (clock (fst (execute ns_per_ms passing start_stale)) -
          clock start_stale))
      (err_message stale) (err_file stale) (err_line stale).
Proof.
  split; [reflexivity |]. split; [reflexivity |].
  exact (execute_pass_frame Z ns_per_ms passing start_stale
           eq_refl eq_refl).
Defined.





End Checks.

(** * Further properties of the header *)

(** ** Test::execute *)

Section ExecuteLifecycle.
Local Open Scope list_scope.
Variable G : Type.
Variable ticks_per_ms : Z.

(** X1: the calls execute makes into the test, in order: the setup hook
    always; the body only when the setup hook returned; the teardown hook
    last, unless the setup hook or the body raised an object that is not
    derived from std::exception. *)
Theorem execute_lifecycle_trace :
  forall (this : Test G) (s : State G),
    trace (fst (execute ticks_per_ms this s)) =
      trace s ++ [call_pre_test]
        ++ match out (pre_test this (user s)) with
           | inr _ => [call_execute_test]
           | inl _ => []
           end
        ++ (if handled_by_execute (out (setup_then_body this (user s)))
            then [call_post_test] else []).
Proof.
  intros this s.
  run_hooks this s; cbn; rewrite <- ?app_assoc; reflexivity.
Qed.

(** X2: an error raised by the setup hook is recorded as one raised by
    the body would be: a Failure Signal gives status fail with its
    message, file and line; another std::exception gives status fail
    with the composed message and leaves err_file and err_line alone; an
    object not derived from std::exception leaves the Result as it was
    and escapes. *)
Theorem execute_setup_failure :
  forall (this : Test G) (s : State G) (e : Thrown),
    out (pre_test this (user s)) = inl e ->
    let s' := fst (execute ticks_per_ms this s) in
    match e with
    | assert_fail_exception M F L =>
        status (res s') = Status.fail /\ err_message (res s') = M /\
        err_file (res s') = F /\ err_line (res s') = L
    | std_exception ex_what =>
        status (res s') = Status.fail /\
        err_message (res s') = unhandled_message ex_what /\
        err_file (res s') = err_file (res s) /\
        err_line (res s') = err_line (res s)
    | foreign_exception _ =>
        res s' = res s /\ snd (execute ticks_per_ms this s) = inl e
    end.
Proof.
  intros this s e Hpre.
  run_hooks this s; inversion Hpre; subst;
    repeat match goal with
           | w : option string |- _ => destruct w
           end;
    cbn; auto.
Qed.

(** X3: what execute leaves alone, on every path including the ones on
    which an error escapes: info always; err_file and err_line unless the
    setup hook or the body raised a Failure Signal; err_message unless
    one of them raised an error derived from std::exception. *)
Theorem execute_error_fields_frame :
  forall (this : Test G) (s : State G),
    let s' := fst (execute ticks_per_ms this s) in
    let o := out (setup_then_body this (user s)) in
    info (res s') = info (res s) /\
    ((forall M F L, o <> inl (assert_fail_exception M F L)) ->
     err_file (res s') = err_file (res s) /\
     err_line (res s') = err_line (res s)) /\
    ((forall e, o = inl e -> derives_from_std_exception e = false) ->
     err_message (res s') = err_message (res s)).
Proof.
  intros this s.
  run_hooks this s;
    repeat match goal with
           | w : option string |- _ => destruct w
           end;
    cbn; (split; [reflexivity |]); split; intro H;
    solve [ split; reflexivity
          | reflexivity
          | exfalso; eapply H; reflexivity
          | specialize (H _ eq_refl); discriminate H ].
Qed.

(** X4: execute never puts the status back to not_run: the status is
    not_run afterwards only if it was before and the setup hook or the
    body raised an object not derived from std::exception. *)
Theorem execute_status_not_run :
  forall (this : Test G) (s : State G),
    status (res (fst (execute ticks_per_ms this s))) = Status.not_run ->
    status (res s) = Status.not_run /\
    exists payload : string,
      out (setup_then_body this (user s)) =
        inl (foreign_exception payload).
Proof.
  intros this s.
  run_hooks this s;
    repeat match goal with
           | w : option string |- _ => destruct w
           end;
    cbn; intro H; try discriminate H; split; eauto.
Qed.

(** X5: the duration execute stores covers the setup hook, the body (if
    it ran) and the teardown hook: when execute returns, the duration is
    at least the whole milliseconds, rounded toward zero, that the three
    hooks took together.  (What the framework itself spends between the
    two clock readings is not part of the embedding, hence a bound.) *)
Theorem execute_duration_covers_hooks :
  0 < ticks_per_ms ->
  forall (this : Test G) (s : State G) (st : Status.t),
    snd (execute ticks_per_ms this s) = inr st ->
    let ran := setup_then_body this (user s) in
    let in_hooks := Z.of_N (ticks ran + ticks (post_test this (after ran))) in
    Z.quot in_hooks ticks_per_ms <=
      duration (res (fst (execute ticks_per_ms this s))).
Proof.
  intros Hpos this s st H.
  assert (Hmono : forall a b : Z,
            0 <= a <= b -> Z.quot a ticks_per_ms <= Z.quot b ticks_per_ms)
    by (intros a b Hab; apply Z.quot_le_mono; lia).
  run_hooks this s;
    repeat match goal with
           | w : option string |- _ => destruct w
           end;
    cbn; unfold duration_cast_milliseconds; apply Hmono; lia.
Qed.

(** X6: when an error escapes execute, the duration of the Result is not
    written. *)
Theorem execute_escape_keeps_duration :
  forall (this : Test G) (s : State G) (e : Thrown),
    snd (execute ticks_per_ms this s) = inl e ->
    duration (res (fst (execute ticks_per_ms this s))) = duration (res s).
Proof.
  intros this s e.
  run_hooks this s;
    repeat match goal with
           | w : option string |- _ => destruct w
           end;
    cbn; intro H; try discriminate H; reflexivity.
Qed.

End ExecuteLifecycle.

(** ** Runner *)

Section RunnerComposition.
Local Open Scope list_scope.
Variable G : Type.
Variable size_t_bits : Z.
Variable ticks_per_ms : Z.

(** X7: the single-test entry point stamps the Result with the descriptor
    as soon as the factory has returned, whatever the test then does;
    when the factory throws, the error escapes, the Result is left as it
    was and no hook of any test is called. *)
Theorem run_single_stamps_descriptor :
  forall (ti : Info G) (s : State G),
    let s' := fst (run_single ticks_per_ms ti s) in
    match out (f ti (user s)) with
    | inr _ => info (res s') = address_of ti
    | inl e =>
        res s' = res s /\
        snd (run_single ticks_per_ms ti s) = inl e /\
        trace s' = trace s ++ [call_factory ti]
    end.
Proof.
  intros ti s. unfold run_single, bind, call, update_res.
  destruct (f ti (user s)) as [g0 k0 [e | tst]]; simpl_state.
  - repeat split.
  - match goal with
    | |- context [execute _ tst ?s0] =>
        destruct (execute_frame G ticks_per_ms tst s0) as (_ & _ & Hinfo & _)
    end.
    simpl_state. exact Hinfo.
Qed.

(** What a returning execute has written. *)
Lemma execute_returned_result (this : Test G) (s : State G) (st : Status.t) :
  0 < ticks_per_ms ->
  snd (execute ticks_per_ms this s) = inr st ->
  let r := res (fst (execute ticks_per_ms this s)) in
  st <> Status.not_run /\
  0 <= duration r /\
  (st = Status.pass ->
   err_message r = err_message (res s) /\
   err_file r = err_file (res s) /\ err_line r = err_line (res s)).
Proof.
  intros Hpos H.
  assert (Hquot : forall k1 k2 k3 : N,
            0 <= Z.quot (clock s + Z.of_N k1 + Z.of_N k2 + Z.of_N k3
                         - clock s) ticks_per_ms)
    by (intros; apply Z.quot_pos; lia).
  assert (Hquot' : forall k1 k3 : N,
            0 <= Z.quot (clock s + Z.of_N k1 + Z.of_N k3 - clock s)
                   ticks_per_ms)
    by (intros; apply Z.quot_pos; lia).
  run_hooks this s;
    repeat match goal with
           | w : option string |- _ => destruct w
           end;
    inversion H; subst; cbn; unfold duration_cast_milliseconds;
    repeat split; auto; discriminate.
Qed.

Lemma result_of_execution_populated (ti : Info G) (r : Result G) :
  0 < ticks_per_ms ->
  result_of_execution ticks_per_ms ti r ->
  info r = address_of ti /\
  status r <> Status.not_run /\
  0 <= duration r /\
  (status r = Status.pass ->
   err_message r = EmptyString /\ err_file r = EmptyString /\
   err_line r = 0).
Proof.
  intros Hpos (s & Hret & Hres).
  destruct (run_single_frame G ticks_per_ms ti (declare_result s))
    as (_ & _ & Hst).
  destruct (Hst _ Hret) as [_ Hinfo].
  rewrite Hres in Hinfo. split; [exact Hinfo |].
  revert Hret Hres. unfold run_single, bind, call, update_res.
  destruct (f ti (user (declare_result s))) as [g0 k0 [e | tst]];
    simpl_state; [discriminate |].
  intros Hret Hres.
  pose proof (execute_returned_result tst _ _ Hpos Hret) as Hpop.
  cbv zeta in Hpop. rewrite Hres in Hpop. simpl_state.
  exact Hpop.
Qed.

Variable filter : Info G -> bool.
Variable observer : Result G -> UserCode G unit.

(** X8: every Result the Runner hands to the observer is populated: it is
    stamped with an accepted descriptor of the range, its status is pass
    or fail, its duration is not negative, and when it records a pass its
    error fields are empty. *)
Theorem run_delivers_populated_results :
  0 < ticks_per_ms ->
  forall (itr : list (Info G)) (s s' : State G) (o : Exc Status.t),
    run size_t_bits ticks_per_ms itr filter observer s = (s', o) ->
    exists rs : list (Result G),
      observed (trace s') = observed (trace s) ++ rs /\
      Forall
        (fun r =>
           (exists ti, In ti itr /\ filter ti = true /\
                       info r = address_of ti) /\
           (status r = Status.pass \/ status r = Status.fail) /\
           0 <= duration r /\
           (status r = Status.pass ->
            err_message r = EmptyString /\ err_file r = EmptyString /\
            err_line r = 0))
        rs.
Proof.
  intros Hpos itr s s' o H.
  rewrite run_unfold in H.
  destruct (run_loop size_t_bits ticks_per_ms itr filter observer 0 0 s)
    as [s1 o1] eqn:Hloop.
  destruct (run_loop_trace _ _ _ _ _ _ _ _ _ _ _ Hloop)
    as (n & rs & Hobs & Hrs & _ & _).
  assert (Hs : s1 = s') by (destruct o1; inversion H; reflexivity).
  subst s1. exists rs. split; [exact Hobs |].
  assert (Hin : forall ti, In ti (firstn n (List.filter filter itr)) ->
                           In ti itr /\ filter ti = true).
  { intros ti Hti. apply filter_In.
    rewrite <- (firstn_skipn n (List.filter filter itr)).
    apply in_or_app. left. exact Hti. }
  remember (firstn n (List.filter filter itr)) as accepted eqn:Hacc.
  clear Hacc Hobs Hloop H.
  induction Hrs as [| ti r tis rs' Hr Hrest IH]; [constructor |].
  constructor.
  - destruct (result_of_execution_populated ti r Hpos Hr)
      as (Hinfo & Hst & Hdur & Hpass).
    destruct (Hin ti (or_introl eq_refl)) as [Hitr Hacc].
    split; [exists ti; auto |].
    split; [destruct (status r); auto; congruence |].
    split; assumption.
  - apply IH. intros ti' Hti'. apply Hin. right. exact Hti'.
Qed.

Lemma bind_assoc {A B C : Type} (m : M G A) (k : A -> M G B)
  (h : B -> M G C) (s : State G) :
  bind (bind m k) h s = bind m (fun a => bind (k a) h) s.
Proof.
  unfold bind. destruct (m s) as [s1 [e | a]]; reflexivity.
Qed.

(** The loop over a concatenated range is the loop over the first part
    followed by the loop over the second, the counters carried over. *)
Lemma run_loop_app (a b : list (Info G)) :
  forall (pass test_count : Z) (s : State G),
    run_loop size_t_bits ticks_per_ms (a ++ b) filter observer
      pass test_count s =
    bind (run_loop size_t_bits ticks_per_ms a filter observer
            pass test_count)
         (fun counts =>
            run_loop size_t_bits ticks_per_ms b filter observer
              (fst counts) (snd counts)) s.
Proof.
  induction a as [| ti a IH]; intros pass test_count s; [reflexivity |].
  cbn [app run_loop].
  destruct (filter ti); [| apply IH].
  rewrite bind_assoc. apply bind_ext. intros _ s1.
  rewrite bind_assoc. apply bind_ext. intros r s2. cbv zeta.
  rewrite bind_assoc. apply bind_ext. intros r0 s3.
  rewrite bind_assoc. apply bind_ext. intros _ s4.
  apply IH.
Qed.

(** The counters do not steer the loop: started with other counter
    values it reaches the same state, and returns or lets the same error
    escape. *)
Lemma run_loop_counters (itr : list (Info G)) :
  forall (p c p2 c2 : Z) (s : State G),
    fst (run_loop size_t_bits ticks_per_ms itr filter observer p c s) =
    fst (run_loop size_t_bits ticks_per_ms itr filter observer p2 c2 s) /\
    match
      snd (run_loop size_t_bits ticks_per_ms itr filter observer p c s),
      snd (run_loop size_t_bits ticks_per_ms itr filter observer p2 c2 s)
    with
    | inl e, inl e' => e = e'
    | inr _, inr _ => True
    | _, _ => False
    end.
Proof.
  induction itr as [| ti itr IH]; intros p c p2 c2 s.
  - cbn. auto.
  - cbn [run_loop]. destruct (filter ti); [| apply IH].
    unfold bind, update_res, get_res, call. simpl_state.
    destruct (run_single ticks_per_ms ti _) as [s1 [e | r]]; simpl_state;
      [auto |].
    destruct (observer (res s1) (user s1)) as [g2 k2 [e | []]]; simpl_state;
      [auto |].
    apply IH.
Qed.

(** X9: running a concatenated range is running its first part and then
    its second part from the state the first one left: an error that
    escapes either part escapes the whole run at the same point, and
    when both parts return (fewer than 2 ^ size_t_bits tests executed
    in all) the whole run returns pass exactly when both parts do. *)
Theorem run_concatenation :
  0 <= size_t_bits ->
  forall (a b : list (Info G)) (s : State G),
    let whole := run size_t_bits ticks_per_ms (a ++ b) filter observer s in
    let first := run size_t_bits ticks_per_ms a filter observer s in
    match snd first with
    | inl e => whole = (fst first, inl e)
    | inr status_a =>
        let second :=
          run size_t_bits ticks_per_ms b filter observer (fst first) in
        fst whole = fst second /\
        match snd second with
        | inl e => snd whole = inl e
        | inr status_b =>
            Z.of_nat (List.length (List.filter filter (a ++ b)))
              < 2 ^ size_t_bits ->
            snd whole =
              inr (if Status.eqb status_a Status.pass
                      && Status.eqb status_b Status.pass
                   then Status.pass else Status.fail)
        end
    end.
Proof.
  intros Hbits a b s. cbv zeta.
  rewrite (run_unfold _ _ _ _ _ (a ++ b)), run_loop_app.
  unfold bind.
  rewrite (run_unfold _ _ _ _ _ a).
  destruct (run_loop size_t_bits ticks_per_ms a filter observer 0 0 s)
    as [s1 [e | [pa ca]]] eqn:Ha; simpl_state; [reflexivity |].
  rewrite run_unfold.
  destruct (run_loop_counters b pa ca 0 0 s1) as [Hfst Hsnd].
  destruct (run_loop size_t_bits ticks_per_ms b filter observer pa ca s1)
    as [s2 o2] eqn:Hb.
  destruct (run_loop size_t_bits ticks_per_ms b filter observer 0 0 s1)
    as [s2' o2'] eqn:Hb0.
  simpl_state. subst s2'.
  destruct o2 as [e | [pb cb]], o2' as [e' | [pb0 cb0]];
    try contradiction; simpl_state.
  { split; [reflexivity | congruence]. }
  split; [reflexivity |]. intro Hsmall.
  destruct (run_loop_trace _ _ _ _ _ _ _ _ _ _ _ Ha)
    as (na & rsa & _ & Hrsa & _ & Hreta).
  destruct (Hreta _ _ eq_refl) as (Hna & _ & Hpa & Hca).
  destruct (run_loop_trace _ _ _ _ _ _ _ _ _ _ _ Hb)
    as (nb & rsb & Hobsb & Hrsb & _ & Hretb).
  destruct (Hretb _ _ eq_refl) as (Hnb & _ & Hpb & Hcb).
  destruct (run_loop_trace _ _ _ _ _ _ _ _ _ _ _ Hb0)
    as (nb0 & rsb0 & Hobsb0 & _ & _ & Hretb0).
  destruct (Hretb0 _ _ eq_refl) as (_ & _ & Hpb0 & Hcb0).
  assert (Hsame : rsb0 = rsb).
  { rewrite Hobsb in Hobsb0. apply app_inv_head in Hobsb0.
    symmetry. exact Hobsb0. }
  subst rsb0.
  apply Forall2_length in Hrsa, Hrsb.
  subst na nb. rewrite firstn_all in Hrsa, Hrsb.
  rewrite List.filter_app, length_app in Hsmall.
  pose proof (passed_le G rsa) as Hlea.
  pose proof (passed_le G rsb) as Hleb.
  rewrite Hpa, <- Nat.iter_add in Hpb.
  rewrite Hca, <- Nat.iter_add in Hcb.
  rewrite (size_t_incr_iter _ Hbits) in Hpa, Hca, Hpb, Hcb, Hpb0, Hcb0.
  rewrite Z.mod_small in Hpa, Hca, Hpb, Hcb, Hpb0, Hcb0 by lia.
  cbn [fst snd]. f_equal.
  destruct (pa =? ca) eqn:Ea, (pb0 =? cb0) eqn:Eb0, (pb =? cb) eqn:Eb;
    cbn; try reflexivity; exfalso;
    rewrite ?Z.eqb_eq, ?Z.eqb_neq in *; lia.
Qed.

End RunnerComposition.

(** ** Registry *)

Section RegistryProperties.
Local Open Scope list_scope.
Variable G : Type.
Variable size_t_bits : Z.
Variable ticks_per_ms : Z.

Lemma registered_tests_add (info : Info G) (instance : option (Registry G)) :
  registered_tests (Auto_Registered_Test info instance) =
    registered_tests instance ++ [info].
Proof. destruct instance as [r |]; reflexivity. Qed.

Lemma registered_tests_fold (declared : list (Info G)) :
  forall instance : option (Registry G),
    registered_tests (static_initialization declared instance) =
      registered_tests instance ++ declared.
Proof.
  induction declared as [| info declared IH]; intro instance.
  - cbn. rewrite app_nil_r. reflexivity.
  - unfold static_initialization in *. cbn [fold_left].
    rewrite IH, registered_tests_add, <- app_assoc. reflexivity.
Qed.

(** X10: registration only appends.  After static initialisation the
    registry holds what it held before, in the same order, followed by
    the declared tests in the order of their registration; nothing is
    dropped, reordered or merged, so a descriptor registered twice is
    listed twice.  Starting from the untouched registry the result is
    the declared list itself. *)
Theorem static_initialization_appends :
  forall (declared : list (Info G)) (instance : option (Registry G)),
    registered_tests (static_initialization declared instance) =
      registered_tests instance ++ declared /\
    registered_tests (static_initialization declared None) = declared.
Proof.
  intros declared instance. split; [apply registered_tests_fold |].
  rewrite registered_tests_fold. reflexivity.
Qed.

End RegistryProperties.

(** ** Assertion layer *)

Section AssertProperties.
Variable G : Type.
Variable ticks_per_ms : Z.
Variables T1 T2 T : Type.
Context {cmp : Comparable T1 T2} {out1 : Streamable T1}
        {out2 : Streamable T2}.

(** X12: is_true and is_false are complementary, exactly one of them
    returns; expr returns exactly when is_true does; and for operand
    types whose operator!= is the negation of operator==, exactly one of
    eq and neq returns. *)
Theorem checks_are_complementary :
  forall (condition : bool) (expected : T1) (actual : T2)
         (file_name : string) (line_num : Z),
    (assert.is_true condition file_name line_num = inr tt <->
     assert.is_false condition file_name line_num <> inr tt) /\
    (assert.expr condition file_name line_num = inr tt <->
     assert.is_true condition file_name line_num = inr tt) /\
    (not_equal_to expected actual = negb (equal_to expected actual) ->
     (assert.eq expected actual file_name line_num = inr tt <->
      assert.neq expected actual file_name line_num <> inr tt)).
Proof.
  intros condition expected actual file_name line_num.
  split; [| split].
  - destruct condition; cbn; split; intro H;
      try discriminate; try reflexivity; exfalso; apply H; reflexivity.
  - destruct condition; cbn; split; intro H;
      try discriminate; reflexivity.
  - intro Hneg.
    unfold assert.eq, assert.neq, Basic_Assert.eq, Basic_Assert.neq.
    rewrite Hneg.
    destruct (equal_to expected actual); cbn; split; intro H;
      try discriminate; try reflexivity; exfalso; apply H; reflexivity.
Qed.

(** X13: under the default handler every check either returns or raises
    a Failure Signal that carries a non-empty message and exactly the
    file name and line number the check was called with. *)
Theorem checks_signal_at_call_site :
  forall (condition : bool) (ptr : pointer T) (expected : T1) (actual : T2)
         (file_name : string) (line_num : Z),
    returns_or_signals_at file_name line_num
      (assert.expr condition file_name line_num) /\
    returns_or_signals_at file_name line_num
      (assert.is_true condition file_name line_num) /\
    returns_or_signals_at file_name line_num
      (assert.is_false condition file_name line_num) /\
    returns_or_signals_at file_name line_num
      (assert.is_null ptr file_name line_num) /\
    returns_or_signals_at file_name line_num
      (assert.is_not_null ptr file_name line_num) /\
    returns_or_signals_at file_name line_num
      (assert.eq expected actual file_name line_num) /\
    returns_or_signals_at file_name line_num
      (assert.neq expected actual file_name line_num).
Proof.
  intros condition ptr expected actual file_name line_num.
  unfold returns_or_signals_at, assert.eq, assert.neq,
    Basic_Assert.eq, Basic_Assert.neq.
  destruct condition, ptr, (equal_to expected actual),
    (not_equal_to expected actual); cbn;
    repeat split; try (left; reflexivity);
    right; eexists; (split; [| reflexivity]); discriminate.
Qed.

(** X14: a test whose setup hook returns and whose body ends in the
    outcome of a check called at file F, line L either passes, or fails
    with a Result that names F and L and has a non-empty message. *)
Theorem execute_reports_call_site :
  forall (this : Test G) (s : State G) (F : string) (L : Z),
    out (pre_test this (user s)) = inr tt ->
    returns_or_signals_at F L
      (out (execute_test this (after (pre_test this (user s))))) ->
    let r := res (fst (execute ticks_per_ms this s)) in
    status r = Status.pass \/
    (status r = Status.fail /\ err_file r = F /\ err_line r = L /\
     err_message r <> EmptyString).
Proof.
  intros this s F L Hpre [Hbody | (message & Hmsg & Hbody)];
    run_hooks this s; inversion Hbody; subst; cbn; auto.
Qed.

End AssertProperties.

(** ** Order of construction and delivery; the methods of Result *)

Section RunnerOrder.
Local Open Scope list_scope.
Variable G : Type.
Variable size_t_bits : Z.
Variable ticks_per_ms : Z.
Variable filter : Info G -> bool.
Variable observer : Result G -> UserCode G unit.

Lemma milestones_app (tr1 tr2 : list (Call G)) :
  milestones (tr1 ++ tr2) = milestones tr1 ++ milestones tr2.
Proof.
  induction tr1 as [| c tr1 IH]; [reflexivity |].
  destruct c; cbn; rewrite IH; reflexivity.
Qed.

Lemma execute_milestones (this : Test G) (s : State G) :
  milestones (trace (fst (execute ticks_per_ms this s))) =
    milestones (trace s).
Proof.
  run_hooks this s; cbn; rewrite ?milestones_app; cbn;
    rewrite ?app_nil_r; reflexivity.
Qed.

Lemma run_single_milestones (ti : Info G) (s : State G) :
  milestones (trace (fst (run_single ticks_per_ms ti s))) =
    milestones (trace s) ++ [call_factory ti].
Proof.
  unfold run_single, bind, call, update_res.
  destruct (f ti (user s)) as [g0 k0 [e | tst]]; simpl_state.
  - rewrite milestones_app. reflexivity.
  - match goal with
    | |- context [execute _ tst ?s0] =>
        pose proof (execute_milestones tst s0) as H;
        destruct (execute ticks_per_ms tst s0) as [s1 o1]
    end.
    simpl_state. destruct o1; simpl_state;
      rewrite H, milestones_app; reflexivity.
Qed.

Lemma run_loop_milestones (itr : list (Info G)) :
  forall (pass test_count : Z) (s s' : State G) (counts : Z * Z),
    run_loop size_t_bits ticks_per_ms itr filter observer
      pass test_count s = (s', inr counts) ->
    exists rs : list (Result G),
      List.length rs = List.length (List.filter filter itr) /\
      observed (trace s') = observed (trace s) ++ rs /\
      milestones (trace s') =
        milestones (trace s) ++ alternating (List.filter filter itr) rs.
Proof.
  induction itr as [| ti itr IH]; intros pass test_count s s' counts H.
  - cbn in H. inversion H; subst. exists []. cbn.
    rewrite !app_nil_r. auto.
  - cbn [run_loop List.filter] in H |- *.
    destruct (filter ti); [| exact (IH _ _ _ _ _ H)].
    unfold bind at 1, update_res at 1 in H. simpl_state.
    change (mkState (user s) (clock s) Result_new (trace s))
      with (declare_result s) in H.
    pose proof (run_single_milestones ti (declare_result s)) as Hmile.
    destruct (run_single_frame G ticks_per_ms ti (declare_result s))
      as (Hobs & _ & _).
    unfold bind at 1 in H.
    destruct (run_single ticks_per_ms ti (declare_result s))
      as [s1 [e | r]]; simpl_state; [discriminate H |].
    cbn [declare_result trace] in Hobs, Hmile.
    unfold bind at 1, get_res at 1 in H. simpl_state.
    unfold bind at 1, call at 1 in H. simpl_state.
    destruct (observer (res s1) (user s1)) as [g2 k2 [e | []]];
      simpl_state; [discriminate H |].
    destruct (IH _ _ _ _ _ H) as (rs & Hlen & Hobs' & Hmile').
    simpl_state.
    exists (res s1 :: rs). cbn [List.length alternating].
    split; [congruence |].
    rewrite Hobs', Hmile', observed_app, milestones_app, Hobs, Hmile.
    cbn [observed milestones]. rewrite <- !app_assoc.
    split; reflexivity.
Qed.

(** X15: results are delivered one test at a time.  In a run that
    returns, the factory calls and observer calls strictly alternate:
    each accepted descriptor is constructed, executed, and its Result
    handed to the observer before the factory of the next accepted
    descriptor is called. *)
Theorem run_delivers_before_next_construction :
  forall (itr : list (Info G)) (s s' : State G) (st : Status.t),
    run size_t_bits ticks_per_ms itr filter observer s = (s', inr st) ->
    exists rs : list (Result G),
      List.length rs = List.length (List.filter filter itr) /\
      observed (trace s') = observed (trace s) ++ rs /\
      milestones (trace s') =
        milestones (trace s) ++ alternating (List.filter filter itr) rs.
Proof.
  intros itr s s' st H.
  rewrite run_unfold in H.
  destruct (run_loop size_t_bits ticks_per_ms itr filter observer 0 0 s)
    as [s1 [e | counts]] eqn:Hloop; [discriminate H |].
  inversion H; subst s1.
  exact (run_loop_milestones _ _ _ _ _ _ Hloop).
Qed.

(** X16: Result::exception does not reset the location.  Called on a
    Result that Result::fail filled in, it replaces status and message
    but leaves the file and line of the earlier Failure Signal; called
    the other way round, Result::fail overwrites everything
    Result::exception wrote.  Neither touches info or duration. *)
Theorem Result_exception_keeps_location :
  forall (r : Result G) (ex_what : option string)
         (msg file_name : string) (line_num : Z),
    let failed := Result_fail msg file_name line_num r in
    err_file (Result_exception ex_what failed) = file_name /\
    err_line (Result_exception ex_what failed) = line_num /\
    err_message (Result_exception ex_what failed) =
      unhandled_message ex_what /\
    status (Result_exception ex_what failed) = Status.fail /\
    Result_fail msg file_name line_num (Result_exception ex_what r) =
      failed /\
    info (Result_exception ex_what failed) = info r /\
    duration (Result_exception ex_what failed) = duration r.
Proof.
  intros r ex_what msg file_name line_num.
  destruct ex_what; cbn; repeat split.
Qed.

End RunnerOrder.

(** * The further properties at concrete tests *)

Module MoreChecks.
Import Samples.
Local Open Scope list_scope.

Lemma execute_setup_failure_witness :
  out (pre_test setup_asserting (user start)) =
    inl (assert_fail_exception "no database" "fx.cpp" 3) /\
  let s' := fst (execute ns_per_ms setup_asserting start) in
  status (res s') = Status.fail /\ err_message (res s') = "no database" /\
  err_file (res s') = "fx.cpp" /\ err_line (res s') = 3.
Proof.
  split; [reflexivity |].
  exact (execute_setup_failure Z ns_per_ms setup_asserting start
           (assert_fail_exception "no database" "fx.cpp" 3) eq_refl).
Defined.

Lemma execute_error_fields_frame_witness :
  (forall M F L,
     out (setup_then_body passing (user start_stale)) <>
       inl (assert_fail_exception M F L)) /\
  (forall e,
     out (setup_then_body passing (user start_stale)) = inl e ->
     derives_from_std_exception e = false) /\
  let s' := fst (execute ns_per_ms passing start_stale) in
  info (res s') = info stale /\
  (err_file (res s') = "old.cpp" /\ err_line (res s') = 99) /\
  err_message (res s') = "old failure".
Proof.
  assert (H1 : forall M F L,
             out (setup_then_body passing (user start_stale)) <>
               inl (assert_fail_exception M F L))
    by (intros M F L H; discriminate H).
  assert (H2 : forall e,
             out (setup_then_body passing (user start_stale)) = inl e ->
             derives_from_std_exception e = false)
    by (intros e H; discriminate H).
  split; [exact H1 |]. split; [exact H2 |].
  destruct (execute_error_fields_frame Z ns_per_ms passing start_stale)
    as (Hinfo & Hloc & Hmsg).
  split; [exact Hinfo |].
  split; [exact (Hloc H1) | exact (Hmsg H2)].
Defined.

Lemma execute_status_not_run_witness :
  status (res (fst (execute ns_per_ms throwing_int start))) =
    Status.not_run /\
  status (res start) = Status.not_run /\
  exists payload : string,
    out (setup_then_body throwing_int (user start)) =
      inl (foreign_exception payload).
Proof.
  split; [reflexivity |].
  exact (execute_status_not_run Z ns_per_ms throwing_int start eq_refl).
Defined.

Lemma execute_duration_covers_hooks_witness :
  0 < ns_per_ms /\
  snd (execute ns_per_ms passing start) = inr Status.pass /\
  Z.quot
    (Z.of_N (ticks (setup_then_body passing (user start)) +
             ticks (post_test passing
                      (after (setup_then_body passing (user start))))))
    ns_per_ms
  <= duration (res (fst (execute ns_per_ms passing start))).
Proof.
  assert (Hpos : 0 < ns_per_ms) by reflexivity.
  split; [exact Hpos |]. split; [reflexivity |].
  exact (execute_duration_covers_hooks Z ns_per_ms Hpos passing start
           Status.pass eq_refl).
Defined.

Lemma execute_escape_keeps_duration_witness :
  snd (execute ns_per_ms teardown_throwing start_stale) =
    inl (std_exception (Some "teardown failed")) /\
  duration (res (fst (execute ns_per_ms teardown_throwing start_stale))) =
    duration stale.
Proof.
  split; [reflexivity |].
  exact (execute_escape_keeps_duration Z ns_per_ms teardown_throwing
           start_stale (std_exception (Some "teardown failed")) eq_refl).
Defined.

Lemma run_delivers_populated_results_witness :
  0 < ns_per_ms /\
  run bits64 ns_per_ms registry is_fast counting_observer start =
    (fst fast_run, snd fast_run) /\
  exists rs : list (Result Z),
    observed (trace (fst fast_run)) = observed (trace start) ++ rs /\
    Forall
      (fun r =>
         (exists ti, In ti registry /\ is_fast ti = true /\
                     info r = address_of ti) /\
         (status r = Status.pass \/ status r = Status.fail) /\
         0 <= duration r /\
         (status r = Status.pass ->
          err_message r = EmptyString /\ err_file r = EmptyString /\
          err_line r = 0))
      rs.
Proof.
  assert (Hpos : 0 < ns_per_ms) by reflexivity.
  assert (Hrun :
    run bits64 ns_per_ms registry is_fast counting_observer start =
      (fst fast_run, snd fast_run))
    by (vm_compute; reflexivity).
  split; [exact Hpos |]. split; [exact Hrun |].
  exact (run_delivers_populated_results Z bits64 ns_per_ms is_fast
           counting_observer Hpos registry start (fst fast_run)
           (snd fast_run) Hrun).
Defined.

Lemma run_concatenation_witness :
  0 <= bits64 /\
  Z.of_nat (List.length (List.filter is_fast (fast_part ++ registry)))
    < 2 ^ bits64 /\
  snd (run bits64 ns_per_ms (fast_part ++ registry) is_fast
         counting_observer start) = inr Status.pass.
Proof.
  assert (Hbits : 0 <= bits64) by (intro H; discriminate H).
  assert (Hsmall :
    Z.of_nat (List.length (List.filter is_fast (fast_part ++ registry)))
      < 2 ^ bits64)
    by (vm_compute; reflexivity).
  split; [exact Hbits |]. split; [exact Hsmall |].
  pose proof (run_concatenation Z bits64 ns_per_ms is_fast
                counting_observer Hbits fast_part registry start) as H.
  vm_compute in H. vm_compute.
  exact (proj2 H eq_refl).
Defined.

Lemma checks_are_complementary_witness :
  not_equal_to 5 6 = negb (equal_to 5 6) /\
  (assert.eq 5 6 "t.cpp" 1 = inr tt <->
   assert.neq 5 6 "t.cpp" 1 <> inr tt).
Proof.
  split; [reflexivity |].
  exact (proj2 (proj2 (checks_are_complementary Z Z true 5 6 "t.cpp" 1))
           eq_refl).
Defined.

Lemma execute_reports_call_site_witness :
  out (pre_test asserting (user start)) = inr tt /\
  returns_or_signals_at "t.cpp" 42
    (out (execute_test asserting (after (pre_test asserting (user start)))))
  /\
  let r := res (fst (execute ns_per_ms asserting start)) in
  status r = Status.pass \/
  (status r = Status.fail /\ err_file r = "t.cpp" /\ err_line r = 42 /\
   err_message r <> EmptyString).
Proof.
  assert (Hbody :
    returns_or_signals_at "t.cpp" 42
      (out (execute_test asserting
              (after (pre_test asserting (user start)))))).
  { right. exists "boom". split; [discriminate | reflexivity]. }
  split; [reflexivity |]. split; [exact Hbody |].
  exact (execute_reports_call_site Z ns_per_ms asserting start "t.cpp" 42
           eq_refl Hbody).
Defined.

Lemma run_delivers_before_next_construction_witness :
  run bits64 ns_per_ms registry is_fast counting_observer start =
    (fst fast_run, inr Status.pass) /\
  exists rs : list (Result Z),
    List.length rs = List.length (List.filter is_fast registry) /\
    observed (trace (fst fast_run)) = observed (trace start) ++ rs /\
    milestones (trace (fst fast_run)) =
      milestones (trace start) ++
      alternating (List.filter is_fast registry) rs.
Proof.
  assert (Hrun :
    run bits64 ns_per_ms registry is_fast counting_observer start =
      (fst fast_run, inr Status.pass))
    by (vm_compute; reflexivity).
  split; [exact Hrun |].
  exact (run_delivers_before_next_construction Z bits64 ns_per_ms is_fast
           counting_observer registry start (fst fast_run) Status.pass
           Hrun).
Defined.

End MoreChecks.
